(** * The SentencePiece tokenizer wrapper of [llama/tokenizer.py]

    A shallow embedding of the [Tokenizer] class: its constructor, [encode]
    and [decode].  The instance is modelled as the set of attributes the
    constructor assigns (an attribute that was never assigned is absent, and
    reading it raises [AttributeError]); Python exceptions are values carried
    by an outcome; the calls made to the SentencePiece model and to the logger
    are recorded in a trace, so that "no model call happened" and "the
    instance was not modified" are statements about the final world.

    Assertions are enabled (the interpreter runs without [-O]). *)

From Stdlib Require Import ZArith List String Bool Lia.
From Stdlib Require Import DecimalString.
Import ListNotations.

Set Warnings "-register-all".

Local Open Scope string_scope.
Local Open Scope Z_scope.

(** ** Python values and exceptions *)

(** The values a caller can pass where the signature says [s: str]. *)
Inductive pyval : Type :=
| PyNone
| PyBool (b : bool)
| PyInt (z : Z)
| PyBytes (b : list Byte.byte)
| PyStr (s : string)
| PyList (l : list pyval).

(** [isinstance(s, str)] *)
Definition isinstance_str (v : pyval) : bool :=
  match v with
  | PyStr _ => true
  | _ => false
  end.

(** Exception classes.  [OtherException] stands for any further class that
    derives from [Exception] (RuntimeError, TypeError, IndexError, ...),
    [NonException] for the classes that derive from [BaseException] only
    (KeyboardInterrupt, SystemExit, GeneratorExit). *)
Inductive exc_class : Type :=
| AssertionError
| AttributeError
| FileNotFoundError
| ValueError
| OtherException (name : string)
| NonException (name : string).

(** An exception object: its class, its message ([str(e)]) and the exception
    that was being handled when it was raised ([__context__]). *)
Inductive exception : Type :=
| Exc (cls : exc_class) (msg : string) (context : option exception).

Definition exc_cls (e : exception) : exc_class :=
  match e with Exc c _ _ => c end.

(** [str(e)], as the f-string [{e}] renders it. *)
Definition str (e : exception) : string :=
  match e with Exc _ m _ => m end.

Definition exc_context (e : exception) : option exception :=
  match e with Exc _ _ c => c end.

(** [isinstance(e, Exception)], the test of [except Exception]. *)
Definition is_Exception (e : exception) : bool :=
  match exc_cls e with
  | NonException _ => false
  | _ => true
  end.

(** Length of the [__context__] chain. *)
Fixpoint chain_length (e : exception) : nat :=
  match e with
  | Exc _ _ None => O
  | Exc _ _ (Some e') => S (chain_length e')
  end.

Inductive outcome (A : Type) : Type :=
| Return (a : A)
| Raise (e : exception).
Arguments Return {A} a.
Arguments Raise {A} e.

Definition outcome_map {A B : Type} (f : A -> B) (r : outcome A) : outcome B :=
  match r with
  | Return a => Return (f a)
  | Raise e => Raise e
  end.

(** ** The error taxonomy of the specification

    The code has no error classes of its own; each kind of failure shows as
    a built-in Python exception class. *)
Inductive error_kind : Type :=
| NotFound
| NotInitialized
| TypeMismatch
| EncodingFailure.

Definition classify (e : exception) : option error_kind :=
  match exc_cls e with
  | FileNotFoundError => Some NotFound
  | AttributeError => Some NotInitialized
  | AssertionError => Some TypeMismatch
  | ValueError => Some EncodingFailure
  | _ => None
  end.

(** ** The SentencePiece model handle

    [SentencePieceProcessor] is a third-party object: the wrapper only uses
    the methods below, which are taken as they come.  [encode] receives
    whatever the wrapper passes on. *)
Module SentencePiece.

Record Processor : Type := {
  vocab_size : Z;
  get_piece_size : Z;
  bos_id : Z;
  eos_id : Z;
  pad_id : Z;
  unk_id : Z;
  encode : pyval -> outcome (list Z);
  decode : list Z -> outcome string
}.

End SentencePiece.

(** What the constructor needs from its surroundings: [os.path.isfile] and
    [SentencePieceProcessor(model_file=...)]. *)
Record Host : Type := {
  isfile : string -> bool;
  SentencePieceProcessor : string -> outcome SentencePiece.Processor
}.

(** ** The instance and the world *)

(** The attributes of a [Tokenizer] instance; [None] is an attribute that
    has not been assigned. *)
Record Tokenizer : Type := {
  sp_model : option SentencePiece.Processor;
  n_words : option Z;
  bos_id : option Z;
  eos_id : option Z;
  pad_id : option Z;
  unk_id : option Z
}.

(** A freshly allocated instance, before [__init__] runs. *)
Definition blank : Tokenizer :=
  {| sp_model := None; n_words := None; bos_id := None;
     eos_id := None; pad_id := None; unk_id := None |}.

Inductive event : Type :=
| LoggerInfo (msg : string)
| ModelLoad (path : string)
| ModelEncode (s : pyval)
| ModelDecode (t : list Z).

Record World : Type := {
  self : Tokenizer;
  trace : list event
}.

(** ** A state-and-exception monad: the state survives a raise *)

Definition M (A : Type) : Type := World -> outcome A * World.

Definition ret {A : Type} (a : A) : M A := fun w => (Return a, w).

Definition raise {A : Type} (e : exception) : M A := fun w => (Raise e, w).

Definition bind {A B : Type} (m : M A) (k : A -> M B) : M B :=
  fun w =>
    match m w with
    | (Return a, w') => k a w'
    | (Raise e, w') => (Raise e, w')
    end.

Declare Scope py_scope.
Delimit Scope py_scope with py.
Notation "x <- c1 ;; c2" := (bind c1 (fun x => c2))
  (at level 61, c1 at next level, right associativity) : py_scope.
Notation "c1 ;; c2" := (bind c1 (fun _ => c2))
  (at level 61, right associativity) : py_scope.
Local Open Scope py_scope.

(** [try: body  except Exception as e: handler e] *)
Definition try_except {A : Type} (body : M A) (handler : exception -> M A) : M A :=
  fun w =>
    match body w with
    | (Return a, w') => (Return a, w')
    | (Raise e, w') => if is_Exception e then handler e w' else (Raise e, w')
    end.

(** A [raise] executed while [e] is being handled: Python stores [e] as the
    [__context__] of the new exception. *)
Definition raise_while_handling {A : Type} (e : exception)
    (cls : exc_class) (msg : string) : M A :=
  raise (Exc cls msg (Some e)).

(** [assert cond, msg] *)
Definition py_assert (cond : bool) (msg : string) : M unit :=
  if cond then ret tt else raise (Exc AssertionError msg None).

(** Reading [self.<name>]. *)
Definition getattr {A : Type} (name : string) (field : Tokenizer -> option A) : M A :=
  fun w =>
    match field (self w) with
    | Some a => (Return a, w)
    | None =>
        (Raise (Exc AttributeError
                  ("'Tokenizer' object has no attribute '" ++ name ++ "'") None), w)
    end.

(** Assigning [self.<name> = ...]. *)
Definition setattr (update : Tokenizer -> Tokenizer) : M unit :=
  fun w => (Return tt, {| self := update (self w); trace := trace w |}).

Definition emit (ev : event) : M unit :=
  fun w => (Return tt, {| self := self w; trace := (trace w ++ [ev])%list |}).

(** A call into the outside world: recorded, then its outcome taken. *)
Definition extern {A : Type} (ev : event) (r : outcome A) : M A :=
  emit ev ;; (fun w => (r, w)).

Definition logger_info (msg : string) : M unit := emit (LoggerInfo msg).

(** [[f(x) for x in l]] where [f] reads attributes. *)
Fixpoint list_comp {A B : Type} (f : A -> M B) (l : list A) : M (list B) :=
  match l with
  | [] => ret []
  | x :: xs => y <- f x ;; ys <- list_comp f xs ;; ret (y :: ys)
  end.

(** An integer as an f-string shows it. *)
Definition str_of_int (z : Z) : string := NilZero.string_of_int (Z.to_int z).

(** [token_id in range(n)] for integers. *)
Definition in_range (token_id n : Z) : bool :=
  (0 <=? token_id) && (token_id <? n).

(** ** The class *)

Definition set_sp_model (sp : SentencePiece.Processor) (o : Tokenizer) : Tokenizer :=
  {| sp_model := Some sp; n_words := n_words o; bos_id := bos_id o;
     eos_id := eos_id o; pad_id := pad_id o; unk_id := unk_id o |}.
Definition set_n_words (v : Z) (o : Tokenizer) : Tokenizer :=
  {| sp_model := sp_model o; n_words := Some v; bos_id := bos_id o;
     eos_id := eos_id o; pad_id := pad_id o; unk_id := unk_id o |}.
Definition set_bos_id (v : Z) (o : Tokenizer) : Tokenizer :=
  {| sp_model := sp_model o; n_words := n_words o; bos_id := Some v;
     eos_id := eos_id o; pad_id := pad_id o; unk_id := unk_id o |}.
Definition set_eos_id (v : Z) (o : Tokenizer) : Tokenizer :=
  {| sp_model := sp_model o; n_words := n_words o; bos_id := bos_id o;
     eos_id := Some v; pad_id := pad_id o; unk_id := unk_id o |}.
Definition set_pad_id (v : Z) (o : Tokenizer) : Tokenizer :=
  {| sp_model := sp_model o; n_words := n_words o; bos_id := bos_id o;
     eos_id := eos_id o; pad_id := Some v; unk_id := unk_id o |}.
Definition set_unk_id (v : Z) (o : Tokenizer) : Tokenizer :=
  {| sp_model := sp_model o; n_words := n_words o; bos_id := bos_id o;
     eos_id := eos_id o; pad_id := pad_id o; unk_id := Some v |}.

(** [Tokenizer.__init__(self, model_path)] *)
Definition __init__ (host : Host) (model_path : option string) : M unit :=
  match model_path with
  | None => ret tt
  | Some path =>
      if negb (isfile host path) then
        raise (Exc FileNotFoundError ("Model file not found: " ++ path) None)
      else
        sp <- extern (ModelLoad path) (SentencePieceProcessor host path) ;;
        setattr (set_sp_model sp) ;;
        logger_info ("Reloaded SentencePiece model from " ++ path) ;;
        m <- getattr "sp_model" sp_model ;;
        setattr (set_n_words (SentencePiece.vocab_size m)) ;;
        m <- getattr "sp_model" sp_model ;;
        setattr (set_bos_id (SentencePiece.bos_id m)) ;;
        m <- getattr "sp_model" sp_model ;;
        setattr (set_eos_id (SentencePiece.eos_id m)) ;;
        m <- getattr "sp_model" sp_model ;;
        setattr (set_pad_id (SentencePiece.pad_id m)) ;;
        m <- getattr "sp_model" sp_model ;;
        setattr (set_unk_id (SentencePiece.unk_id m)) ;;
        n <- getattr "n_words" n_words ;;
        b <- getattr "bos_id" bos_id ;;
        e <- getattr "eos_id" eos_id ;;
        logger_info ("#words: " ++ str_of_int n ++ " - BOS ID: " ++ str_of_int b
                     ++ " - EOS ID: " ++ str_of_int e) ;;
        m1 <- getattr "sp_model" sp_model ;;
        m2 <- getattr "sp_model" sp_model ;;
        py_assert (SentencePiece.vocab_size m1 =? SentencePiece.get_piece_size m2) ""
  end.

(** The call [Tokenizer(model_path)]: allocate, run [__init__], and hand the
    instance to the caller only if [__init__] returned.  The second component
    is what the outside world saw. *)
Definition Tokenizer_new (host : Host) (model_path : option string)
    : outcome Tokenizer * list event :=
  match __init__ host model_path {| self := blank; trace := [] |} with
  | (Return _, w) => (Return (self w), trace w)
  | (Raise e, w) => (Raise e, trace w)
  end.

(** The element expression of the comprehension in [encode]:
    [token_id if token_id in range(self.n_words) else self.unk_id]. *)
Definition clamp_token (token_id : Z) : M Z :=
  n <- getattr "n_words" n_words ;;
  if in_range token_id n then ret token_id else getattr "unk_id" unk_id.

(** [Tokenizer.encode(self, s, bos, eos)] *)
Definition encode (s : pyval) (bos eos : bool) : M (list Z) :=
  py_assert (isinstance_str s) "Input 's' must be a string" ;;
  t <- try_except
         (m <- getattr "sp_model" sp_model ;;
          extern (ModelEncode s) (SentencePiece.encode m s))
         (fun e => raise_while_handling e ValueError
                     ("Error during tokenization: " ++ str e)) ;;
  t <- list_comp clamp_token t ;;
  t <- (if bos then b <- getattr "bos_id" bos_id ;; ret ([b] ++ t)%list else ret t) ;;
  t <- (if eos then e <- getattr "eos_id" eos_id ;; ret (t ++ [e])%list else ret t) ;;
  ret t.

(** [Tokenizer.decode(self, t)] *)
Definition decode (t : list Z) : M string :=
  m <- getattr "sp_model" sp_model ;;
  extern (ModelDecode t) (SentencePiece.decode m t).

(** ** Running a method on an instance *)

Definition Encode (tk : Tokenizer) (s : pyval) (bos eos : bool) : outcome (list Z) :=
  fst (encode s bos eos {| self := tk; trace := [] |}).

Definition Decode (tk : Tokenizer) (t : list Z) : outcome string :=
  fst (decode t {| self := tk; trace := [] |}).

(** The instance [__init__] leaves behind once model [m] is loaded (state
    Ready). *)
Definition loaded (m : SentencePiece.Processor) : Tokenizer :=
  {| sp_model := Some m;
     n_words := Some (SentencePiece.vocab_size m);
     bos_id := Some (SentencePiece.bos_id m);
     eos_id := Some (SentencePiece.eos_id m);
     pad_id := Some (SentencePiece.pad_id m);
     unk_id := Some (SentencePiece.unk_id m) |}.

(** What [__init__] logs on a successful load. *)
Definition load_trace (path : string) (m : SentencePiece.Processor) : list event :=
  [ ModelLoad path;
    LoggerInfo ("Reloaded SentencePiece model from " ++ path);
    LoggerInfo ("#words: " ++ str_of_int (SentencePiece.vocab_size m)
                ++ " - BOS ID: " ++ str_of_int (SentencePiece.bos_id m)
                ++ " - EOS ID: " ++ str_of_int (SentencePiece.eos_id m)) ].

(** The clamp as a function of the recorded vocabulary size and unknown ID. *)
Definition clamp (n unk token_id : Z) : Z :=
  if in_range token_id n then token_id else unk.

(** An ID of the vocabulary of model [m]: the half-open range
    [0, vocabulary size). *)
Definition in_vocab (m : SentencePiece.Processor) (id : Z) : Prop :=
  0 <= id < SentencePiece.vocab_size m.

(** What reading [self.sp_model] raises on an instance that has none. *)
Definition missing_sp_model : exception :=
  Exc AttributeError "'Tokenizer' object has no attribute 'sp_model'" None.

(** What [encode] raises when the model call raised [e]. *)
Definition tokenization_error (e : exception) : exception :=
  Exc ValueError ("Error during tokenization: " ++ str e) (Some e).

(** What the [isinstance] assertion of [encode] raises. *)
Definition not_a_string : exception :=
  Exc AssertionError "Input 's' must be a string" None.

(** A method that leaves the instance as it found it, whatever it returns. *)
Definition preserves_self {A : Type} (m : M A) : Prop :=
  forall w, self (snd (m w)) = self w.

(** A method that makes no call to the outside world and logs nothing. *)
Definition keeps_trace {A : Type} (m : M A) : Prop :=
  forall w, trace (snd (m w)) = trace w.

(** The model call [encode] makes: none unless the input is a string and the
    instance has a model. *)
Definition encode_calls (tk : Tokenizer) (s : pyval) : list event :=
  if isinstance_str s then
    match sp_model tk with
    | Some _ => [ModelEncode s]
    | None => []
    end
  else [].

(** The model call [decode] makes. *)
Definition decode_calls (tk : Tokenizer) (t : list Z) : list event :=
  match sp_model tk with
  | Some _ => [ModelDecode t]
  | None => []
  end.

(** ** Stub models for concrete runs *)

Module Stub.

Definition RuntimeError : exc_class := OtherException "RuntimeError".
Definition IndexError : exc_class := OtherException "IndexError".

Definition raw_encode (s : pyval) : outcome (list Z) :=
  match s with
  | PyStr text =>
      if String.eqb text "" then Return []
      else if String.eqb text "hi" then Return [45; 46]
      else if String.eqb text "mismatch" then Return [45; 100; -3; 46; 99]
      else Raise (Exc RuntimeError "Internal: unsupported input" None)
  | _ => Raise (Exc (OtherException "TypeError") "not a string" None)
  end.

Definition raw_decode (t : list Z) : outcome string :=
  if forallb (fun i => in_range i 100) t then Return "hi"
  else Raise (Exc IndexError "Out of range: piece id is out of range." None).

(** Vocabulary of 100 pieces, UNK=0, BOS=1, EOS=2, no padding piece. *)
Definition model : SentencePiece.Processor :=
  {| SentencePiece.vocab_size := 100;
     SentencePiece.get_piece_size := 100;
     SentencePiece.bos_id := 1;
     SentencePiece.eos_id := 2;
     SentencePiece.pad_id := -1;
     SentencePiece.unk_id := 0;
     SentencePiece.encode := raw_encode;
     SentencePiece.decode := raw_decode |}.

(** The same model trained with the BOS piece disabled: SentencePiece then
    reports -1 as its ID. *)
Definition model_no_bos : SentencePiece.Processor :=
  {| SentencePiece.vocab_size := 100;
     SentencePiece.get_piece_size := 100;
     SentencePiece.bos_id := -1;
     SentencePiece.eos_id := 2;
     SentencePiece.pad_id := -1;
     SentencePiece.unk_id := 0;
     SentencePiece.encode := raw_encode;
     SentencePiece.decode := raw_decode |}.

(** A file system holding one model file. *)
Definition host : Host :=
  {| isfile := fun p => String.eqb p "tokenizer.model";
     SentencePieceProcessor := fun _ => Return model |}.

End Stub.

(** Further models and hosts for the edge cases. *)
Module Edge.

Definition KeyboardInterrupt : exc_class := NonException "KeyboardInterrupt".

(** A model whose encoding is interrupted from the keyboard. *)
Definition interrupted_model : SentencePiece.Processor :=
  {| SentencePiece.vocab_size := 100;
     SentencePiece.get_piece_size := 100;
     SentencePiece.bos_id := 1;
     SentencePiece.eos_id := 2;
     SentencePiece.pad_id := -1;
     SentencePiece.unk_id := 0;
     SentencePiece.encode := fun _ => Raise (Exc KeyboardInterrupt "" None);
     SentencePiece.decode := Stub.raw_decode |}.

(** A handle that reports an empty vocabulary. *)
Definition empty_vocab_model : SentencePiece.Processor :=
  {| SentencePiece.vocab_size := 0;
     SentencePiece.get_piece_size := 0;
     SentencePiece.bos_id := 1;
     SentencePiece.eos_id := 2;
     SentencePiece.pad_id := -1;
     SentencePiece.unk_id := 0;
     SentencePiece.encode := Stub.raw_encode;
     SentencePiece.decode := Stub.raw_decode |}.

(** A model that segments and joins two pieces without loss. *)
Definition lossless_model : SentencePiece.Processor :=
  {| SentencePiece.vocab_size := 100;
     SentencePiece.get_piece_size := 100;
     SentencePiece.bos_id := 1;
     SentencePiece.eos_id := 2;
     SentencePiece.pad_id := -1;
     SentencePiece.unk_id := 0;
     SentencePiece.encode := Stub.raw_encode;
     SentencePiece.decode := fun t =>
       match t with
       | [45; 46] => Return "hi"
       | _ => Return ""
       end |}.

(** A file system where every path is a file, none of them a model. *)
Definition corrupt_host : Host :=
  {| isfile := fun _ => true;
     SentencePieceProcessor := fun _ =>
       Raise (Exc Stub.RuntimeError "Internal: could not parse ModelProto" None) |}.

End Edge.

(** * Properties *)

(** ** Concrete runs *)

Example scenario_hi :
  Encode (loaded Stub.model) (PyStr "hi") true true = Return [1; 45; 46; 2].
Proof. reflexivity. Qed.

Example scenario_empty :
  Encode (loaded Stub.model) (PyStr "") false false = Return [].
Proof. reflexivity. Qed.

Example scenario_mismatch :
  Encode (loaded Stub.model) (PyStr "mismatch") false false = Return [45; 0; 0; 46; 99].
Proof. reflexivity. Qed.

Example scenario_new :
  Tokenizer_new Stub.host (Some "tokenizer.model")
  = (Return (loaded Stub.model), load_trace "tokenizer.model" Stub.model).
Proof. reflexivity. Qed.

Example scenario_log :
  load_trace "tokenizer.model" Stub.model
  = [ ModelLoad "tokenizer.model";
      LoggerInfo "Reloaded SentencePiece model from tokenizer.model";
      LoggerInfo "#words: 100 - BOS ID: 1 - EOS ID: 2" ].
Proof. reflexivity. Qed.

(** ** The monad: how each primitive treats the instance *)

Section Frame.

Context {A B : Type}.

Lemma preserves_self_ret (a : A) : preserves_self (ret a).
Proof. intros w. reflexivity. Qed.

Lemma preserves_self_raise (e : exception) : preserves_self (@raise A e).
Proof. intros w. reflexivity. Qed.

Lemma preserves_self_bind (m : M A) (k : A -> M B) :
  preserves_self m -> (forall a, preserves_self (k a)) -> preserves_self (bind m k).
Proof.
  intros Hm Hk w. unfold bind. specialize (Hm w).
  destruct (m w) as [[a | e] w']; simpl in *.
  - rewrite Hk. exact Hm.
  - exact Hm.
Qed.

Lemma preserves_self_try_except (body : M A) (handler : exception -> M A) :
  preserves_self body -> (forall e, preserves_self (handler e)) ->
  preserves_self (try_except body handler).
Proof.
  intros Hb Hh w. unfold try_except. specialize (Hb w).
  destruct (body w) as [[a | e] w']; simpl in *.
  - exact Hb.
  - destruct (is_Exception e); simpl.
    + rewrite Hh. exact Hb.
    + exact Hb.
Qed.

Lemma preserves_self_getattr (name : string) (field : Tokenizer -> option A) :
  preserves_self (getattr name field).
Proof. intros w. unfold getattr. destruct (field (self w)); reflexivity. Qed.

Lemma preserves_self_extern (ev : event) (r : outcome A) :
  preserves_self (extern ev r).
Proof. intros w. reflexivity. Qed.

End Frame.

Lemma preserves_self_list_comp {A B : Type} (f : A -> M B) (l : list A) :
  (forall a, preserves_self (f a)) -> preserves_self (list_comp f l).
Proof.
  intros Hf. induction l as [| x xs IH]; simpl.
  - intros w. reflexivity.
  - apply preserves_self_bind; [apply Hf |].
    intros y. apply preserves_self_bind; [exact IH |].
    intros ys w. reflexivity.
Qed.

Lemma preserves_self_assert (cond : bool) (msg : string) :
  preserves_self (py_assert cond msg).
Proof. intros w. unfold py_assert. destruct cond; reflexivity. Qed.

Lemma preserves_self_if {A : Type} (c : bool) (m1 m2 : M A) :
  preserves_self m1 -> preserves_self m2 -> preserves_self (if c then m1 else m2).
Proof. destruct c; trivial. Qed.

Create HintDb frame.
#[local] Hint Resolve preserves_self_ret preserves_self_raise preserves_self_bind
  preserves_self_try_except preserves_self_getattr preserves_self_extern
  preserves_self_list_comp preserves_self_assert preserves_self_if : frame.

Lemma preserves_self_clamp_token (token_id : Z) : preserves_self (clamp_token token_id).
Proof. unfold clamp_token. auto 6 with frame. Qed.

#[local] Hint Resolve preserves_self_clamp_token : frame.

Lemma preserves_self_encode (s : pyval) (bos eos : bool) :
  preserves_self (encode s bos eos).
Proof. unfold encode, raise_while_handling. auto 12 with frame. Qed.

Lemma preserves_self_decode (t : list Z) : preserves_self (decode t).
Proof. unfold decode. auto with frame. Qed.

(** ** Running the methods on a loaded instance *)

Lemma in_range_spec (token_id n : Z) :
  in_range token_id n = true <-> 0 <= token_id < n.
Proof. unfold in_range. rewrite andb_true_iff, Z.leb_le, Z.ltb_lt. tauto. Qed.

Lemma clamp_in (n unk r : Z) : 0 <= r < n -> clamp n unk r = r.
Proof.
  intros H. unfold clamp. apply in_range_spec in H. rewrite H. reflexivity.
Qed.

Lemma clamp_out (n unk r : Z) : ~ 0 <= r < n -> clamp n unk r = unk.
Proof.
  intros H. unfold clamp. destruct (in_range r n) eqn:E; [| reflexivity].
  apply in_range_spec in E. contradiction.
Qed.

(** With both attributes present the comprehension is a [map], and it
    leaves the world alone. *)
Lemma list_comp_clamp (w : World) (n unk : Z) (raw : list Z) :
  n_words (self w) = Some n -> unk_id (self w) = Some unk ->
  list_comp clamp_token raw w = (Return (map (clamp n unk) raw), w).
Proof.
  intros Hn Hu. induction raw as [| r raw IH]; simpl.
  - reflexivity.
  - unfold bind at 1. unfold clamp_token at 1. unfold bind at 1.
    unfold getattr at 1. rewrite Hn. unfold clamp at 1.
    destruct (in_range r n).
    + unfold ret at 1. unfold bind. rewrite IH. reflexivity.
    + unfold getattr. rewrite Hu. unfold bind. rewrite IH. reflexivity.
Qed.

(** The ID list [encode] builds from the raw IDs of model [m]. *)
Lemma encode_loaded (m : SentencePiece.Processor) (s : pyval) (bos eos : bool)
    (tr : list event) :
  isinstance_str s = true ->
  encode s bos eos {| self := loaded m; trace := tr |}
  = (match SentencePiece.encode m s with
     | Return raw =>
         Return ((if bos then [SentencePiece.bos_id m] else [])
                 ++ map (clamp (SentencePiece.vocab_size m) (SentencePiece.unk_id m)) raw
                 ++ (if eos then [SentencePiece.eos_id m] else []))%list
     | Raise e => if is_Exception e then Raise (tokenization_error e) else Raise e
     end,
     {| self := loaded m; trace := (tr ++ [ModelEncode s])%list |}).
Proof.
  intros Hs. unfold encode. rewrite Hs.
  unfold py_assert, bind at 1, ret at 1.
  unfold bind at 1, try_except, bind at 1, getattr at 1. simpl sp_model.
  unfold extern, bind at 1, emit. cbn [self trace].
  destruct (SentencePiece.encode m s) as [raw | e].
  - unfold bind at 1.
    rewrite (list_comp_clamp _ (SentencePiece.vocab_size m) (SentencePiece.unk_id m))
      by reflexivity.
    destruct bos, eos; cbn; rewrite ?app_nil_r; reflexivity.
  - destruct (is_Exception e); reflexivity.
Qed.

Lemma Encode_loaded (m : SentencePiece.Processor) (s : string) (bos eos : bool) :
  Encode (loaded m) (PyStr s) bos eos
  = match SentencePiece.encode m (PyStr s) with
    | Return raw =>
        Return ((if bos then [SentencePiece.bos_id m] else [])
                ++ map (clamp (SentencePiece.vocab_size m) (SentencePiece.unk_id m)) raw
                ++ (if eos then [SentencePiece.eos_id m] else []))%list
    | Raise e => if is_Exception e then Raise (tokenization_error e) else Raise e
    end.
Proof. unfold Encode. rewrite encode_loaded by reflexivity. reflexivity. Qed.

(** A successful load leaves [loaded m] and the two log records. *)
Lemma init_loaded (host : Host) (path : string) (m : SentencePiece.Processor)
    (tr : list event) :
  isfile host path = true ->
  SentencePieceProcessor host path = Return m ->
  __init__ host (Some path) {| self := blank; trace := tr |}
  = (if SentencePiece.vocab_size m =? SentencePiece.get_piece_size m
     then Return tt else Raise (Exc AssertionError "" None),
     {| self := loaded m; trace := (tr ++ load_trace path m)%list |}).
Proof.
  intros Hf Hm. unfold __init__. rewrite Hf. simpl negb. cbv iota.
  unfold extern, bind at 1, bind at 1, emit at 1. rewrite Hm.
  cbn -[str_of_int String.append Z.eqb].
  rewrite <- !app_assoc. simpl app.
  destruct (SentencePiece.vocab_size m =? SentencePiece.get_piece_size m); reflexivity.
Qed.

Lemma chain_length_neq (e : exception) (c : exc_class) (msg : string) :
  Exc c msg (Some e) <> e.
Proof.
  intros H. apply (f_equal chain_length) in H. simpl in H. lia.
Qed.

(** ** Encode: the range of the returned IDs *)

(** C1, as stated, fails: [encode] clamps the raw IDs only.  With a model
    whose BOS piece is disabled (ID -1), Encode("hi", true, false) starts with
    -1, which is not in [0, 100). *)
Lemma encode_ids_in_vocab_counterexample :
  Encode (loaded Stub.model_no_bos) (PyStr "hi") true false = Return [-1; 45; 46]
  /\ ~ Forall (in_vocab Stub.model_no_bos) [-1; 45; 46].
Proof.
  split; [reflexivity |].
  intros H. inversion H as [| x l Hx Hl]; subst.
  unfold in_vocab in Hx. simpl in Hx. lia.
Qed.

Lemma Forall_map_clamp_in_vocab (m : SentencePiece.Processor) (raw : list Z) :
  Forall (in_vocab m)
    (map (clamp (SentencePiece.vocab_size m) (SentencePiece.unk_id m)) raw)
  <-> (Exists (fun r => ~ in_vocab m r) raw -> in_vocab m (SentencePiece.unk_id m)).
Proof.
  induction raw as [| r raw IH]; simpl.
  - split; [intros _ H; inversion H | constructor].
  - rewrite Forall_cons_iff, IH, Exists_cons. unfold clamp.
    destruct (in_range r (SentencePiece.vocab_size m)) eqn:E.
    + assert (Hr : in_vocab m r) by (apply in_range_spec; exact E).
      split.
      * intros [_ H] [Hn | He]; [contradiction | auto].
      * intros H. split; [exact Hr | intros He; apply H; right; exact He].
    + assert (Hr : ~ in_vocab m r).
      { intros H. apply in_range_spec in H. congruence. }
      split.
      * intros [Hu _] _. exact Hu.
      * intros H. split; [apply H; left; exact Hr | intros He; apply H; right; exact He].
Qed.

Lemma Forall_flag_in_vocab (m : SentencePiece.Processor) (flag : bool) (id : Z) :
  Forall (in_vocab m) (if flag then [id] else []) <-> (flag = true -> in_vocab m id).
Proof.
  destruct flag.
  - split.
    + intros H _. inversion H; assumption.
    + intros H. constructor; [auto | constructor].
  - split; [intros _ H; discriminate | constructor].
Qed.

(** C1 (amended): when the model returns the raw IDs [raw], Encode(s, bos,
    eos) returns a list in which, after the BOS ID if one is prepended, every
    raw ID inside [0, vocabulary size) is kept in place and every raw ID
    outside it is replaced with the unknown-token ID.  The unknown-token, BOS
    and EOS IDs themselves are not range-checked: every ID of the returned
    list lies in [0, vocabulary size) exactly when the unknown-token ID lies
    in that range if some raw ID is outside it, the BOS ID lies in it if
    [bos] is set, and the EOS ID lies in it if [eos] is set. *)
Theorem encode_ids_in_vocab (m : SentencePiece.Processor) (s : string)
    (bos eos : bool) (raw : list Z) :
  SentencePiece.encode m (PyStr s) = Return raw ->
  exists t,
    Encode (loaded m) (PyStr s) bos eos = Return t
    /\ (forall i r,
           nth_error raw i = Some r ->
           (in_vocab m r -> nth_error t (Nat.b2n bos + i) = Some r)
           /\ (~ in_vocab m r ->
               nth_error t (Nat.b2n bos + i) = Some (SentencePiece.unk_id m)))
    /\ (Forall (in_vocab m) t
        <-> (Exists (fun r => ~ in_vocab m r) raw -> in_vocab m (SentencePiece.unk_id m))
            /\ (bos = true -> in_vocab m (SentencePiece.bos_id m))
            /\ (eos = true -> in_vocab m (SentencePiece.eos_id m))).
Proof.
  intros Hraw. rewrite Encode_loaded, Hraw. eexists. split; [reflexivity |]. split.
  - intros i r Hi.
    assert (Hlt : (i < List.length raw)%nat).
    { apply nth_error_Some. rewrite Hi. discriminate. }
    assert (Hnth : nth_error
                     ((if bos then [SentencePiece.bos_id m] else [])
                      ++ map (clamp (SentencePiece.vocab_size m) (SentencePiece.unk_id m)) raw
                      ++ (if eos then [SentencePiece.eos_id m] else []))%list
                     (Nat.b2n bos + i)
                   = Some (clamp (SentencePiece.vocab_size m) (SentencePiece.unk_id m) r)).
    { destruct bos; simpl;
        (rewrite nth_error_app1 by (rewrite length_map; exact Hlt));
        rewrite nth_error_map, Hi; reflexivity. }
    rewrite Hnth. unfold in_vocab. split; intros H.
    + rewrite clamp_in by exact H. reflexivity.
    + rewrite clamp_out by exact H. reflexivity.
  - rewrite !Forall_app, Forall_map_clamp_in_vocab, !Forall_flag_in_vocab. tauto.
Qed.

Lemma encode_ids_in_vocab_witness :
  exists t,
    Encode (loaded Stub.model) (PyStr "mismatch") true true = Return t
    /\ nth_error t 2 = Some (SentencePiece.unk_id Stub.model)
    /\ Forall (in_vocab Stub.model) t.
Proof.
  destruct (encode_ids_in_vocab Stub.model "mismatch" true true [45; 100; -3; 46; 99])
    as [t [Ht [Hpos Hall]]].
  - reflexivity.
  - exists t. split; [exact Ht |]. split.
    + apply (proj2 (Hpos 1%nat 100 eq_refl)). unfold in_vocab. simpl. lia.
    + apply Hall. split; [| split]; intros _; unfold in_vocab; simpl; lia.
Defined.

(** ** Encode: the BOS and EOS flags *)

(** C2: on a loaded tokenizer, Encode(s, true, false) is [BOS] followed by
    Encode(s, false, false), Encode(s, false, true) is Encode(s, false, false)
    followed by [EOS], and Encode(s, true, true) is [BOS], then
    Encode(s, false, false), then [EOS]; when the plain call raises, so do
    the others, with the same exception.  Whenever the model returns raw IDs
    all four calls return: the plain call a list as long as the raw one, the
    flagged calls that list with the BOS ID put in front and the EOS ID put
    at the end. *)
Theorem encode_bos_eos (m : SentencePiece.Processor) (s : string) :
  (Encode (loaded m) (PyStr s) true false
   = outcome_map (fun t => [SentencePiece.bos_id m] ++ t)%list
       (Encode (loaded m) (PyStr s) false false)
   /\ Encode (loaded m) (PyStr s) false true
   = outcome_map (fun t => t ++ [SentencePiece.eos_id m])%list
       (Encode (loaded m) (PyStr s) false false)
   /\ Encode (loaded m) (PyStr s) true true
   = outcome_map (fun t => [SentencePiece.bos_id m] ++ t ++ [SentencePiece.eos_id m])%list
       (Encode (loaded m) (PyStr s) false false))
  /\ (forall raw,
         SentencePiece.encode m (PyStr s) = Return raw ->
         exists t,
           Encode (loaded m) (PyStr s) false false = Return t
           /\ List.length t = List.length raw
           /\ Encode (loaded m) (PyStr s) true false
              = Return ([SentencePiece.bos_id m] ++ t)%list
           /\ Encode (loaded m) (PyStr s) false true
              = Return (t ++ [SentencePiece.eos_id m])%list
           /\ Encode (loaded m) (PyStr s) true true
              = Return ([SentencePiece.bos_id m] ++ t ++ [SentencePiece.eos_id m])%list).
Proof.
  split.
  - rewrite !Encode_loaded.
    destruct (SentencePiece.encode m (PyStr s)) as [raw | e]; simpl.
    + rewrite !app_nil_r. repeat split; reflexivity.
    + destruct (is_Exception e); repeat split; reflexivity.
  - intros raw Hraw. rewrite !Encode_loaded, Hraw. simpl. rewrite !app_nil_r.
    eexists. split; [reflexivity |]. split; [apply length_map |].
    repeat split; reflexivity.
Qed.

Lemma encode_bos_eos_witness :
  exists t,
    Encode (loaded Stub.model) (PyStr "hi") false false = Return t
    /\ List.length t = List.length [45; 46]
    /\ Encode (loaded Stub.model) (PyStr "hi") true false
       = Return ([SentencePiece.bos_id Stub.model] ++ t)%list
    /\ Encode (loaded Stub.model) (PyStr "hi") false true
       = Return (t ++ [SentencePiece.eos_id Stub.model])%list
    /\ Encode (loaded Stub.model) (PyStr "hi") true true
       = Return ([SentencePiece.bos_id Stub.model] ++ t
                 ++ [SentencePiece.eos_id Stub.model])%list.
Proof.
  apply (proj2 (encode_bos_eos Stub.model "hi") [45; 46]).
  reflexivity.
Defined.

(** ** Encode: errors of the model *)

(** C3: when the model's encoding procedure raises an error [e] (an instance
    of [Exception]), Encode raises a ValueError (EncodingFailure) whose
    message embeds the text of [e] and whose context is [e]; what the caller
    sees is not [e]. *)
Theorem encode_wraps_model_error (m : SentencePiece.Processor) (s : string)
    (bos eos : bool) (e : exception) :
  SentencePiece.encode m (PyStr s) = Raise e ->
  is_Exception e = true ->
  Encode (loaded m) (PyStr s) bos eos = Raise (tokenization_error e)
  /\ classify (tokenization_error e) = Some EncodingFailure
  /\ str (tokenization_error e) = "Error during tokenization: " ++ str e
  /\ exc_context (tokenization_error e) = Some e
  /\ tokenization_error e <> e.
Proof.
  intros Hraw Hexc. rewrite Encode_loaded, Hraw, Hexc.
  repeat split. apply chain_length_neq.
Qed.

Lemma encode_wraps_model_error_witness :
  Encode (loaded Stub.model) (PyStr "boom") true false
  = Raise (Exc ValueError "Error during tokenization: Internal: unsupported input"
             (Some (Exc Stub.RuntimeError "Internal: unsupported input" None))).
Proof.
  apply (encode_wraps_model_error Stub.model "boom" true false
           (Exc Stub.RuntimeError "Internal: unsupported input" None)).
  - reflexivity.
  - reflexivity.
Defined.

(** ** Decode *)

(** C4: on a loaded tokenizer Decode(t) is the outcome of the model's own
    decoding procedure, text or exception, as it is; the model is called
    once and the instance is left as it was. *)
Theorem decode_delegates (m : SentencePiece.Processor) (t : list Z) (tr : list event) :
  Decode (loaded m) t = SentencePiece.decode m t
  /\ decode t {| self := loaded m; trace := tr |}
     = (SentencePiece.decode m t,
        {| self := loaded m; trace := (tr ++ [ModelDecode t])%list |}).
Proof. split; reflexivity. Qed.

(** ** Encode: non-text input *)

(** C5: Encode of a value that is not a string raises the assertion error
    (TypeMismatch) and leaves the world as it was: no call to the model is
    recorded. *)
Theorem encode_rejects_non_text (v : pyval) (bos eos : bool) (w : World) :
  isinstance_str v = false ->
  encode v bos eos w = (Raise not_a_string, w)
  /\ classify not_a_string = Some TypeMismatch.
Proof.
  intros Hv. split; [| reflexivity].
  unfold encode. rewrite Hv. reflexivity.
Qed.

Lemma encode_rejects_non_text_witness :
  encode (PyInt 5) true true {| self := loaded Stub.model; trace := [] |}
  = (Raise not_a_string, {| self := loaded Stub.model; trace := [] |}).
Proof.
  apply (encode_rejects_non_text (PyInt 5) true true
           {| self := loaded Stub.model; trace := [] |}).
  reflexivity.
Defined.

(** ** Construction *)

(** C6: constructing from a path that is not an existing file raises
    FileNotFoundError (NotFound) with the path in its message; [__init__]
    stops before it assigns any attribute or loads anything, and the caller
    gets no instance. *)
Theorem init_missing_file (host : Host) (path : string) (tr : list event) :
  isfile host path = false ->
  let e := Exc FileNotFoundError ("Model file not found: " ++ path) None in
  __init__ host (Some path) {| self := blank; trace := tr |}
  = (Raise e, {| self := blank; trace := tr |})
  /\ Tokenizer_new host (Some path) = (Raise e, [])
  /\ classify e = Some NotFound.
Proof.
  intros Hf e. unfold Tokenizer_new, __init__. rewrite Hf. simpl.
  repeat split.
Qed.

Lemma init_missing_file_witness :
  Tokenizer_new Stub.host (Some "missing.model")
  = (Raise (Exc FileNotFoundError "Model file not found: missing.model" None), []).
Proof.
  apply (init_missing_file Stub.host "missing.model" []).
  reflexivity.
Defined.

(** C7, as stated, fails for Encode: on an instance built without a path the
    missing [sp_model] attribute is read inside the [try], so Encode of a text
    raises the same ValueError as any tokenization failure, not a
    NotInitialized error. *)
Lemma uninitialized_encode_counterexample :
  Tokenizer_new Stub.host None = (Return blank, [])
  /\ Encode blank (PyStr "hi") false false
     = Raise (Exc ValueError
                "Error during tokenization: 'Tokenizer' object has no attribute 'sp_model'"
                (Some missing_sp_model))
  /\ classify (Exc ValueError
                 "Error during tokenization: 'Tokenizer' object has no attribute 'sp_model'"
                 (Some missing_sp_model))
     <> Some NotInitialized.
Proof. repeat split. discriminate. Qed.

(** C7 (amended): on a tokenizer constructed without a path no token
    operation succeeds: Decode raises the missing-attribute error
    (NotInitialized); Encode of a text raises the tokenization ValueError
    (EncodingFailure) that wraps that missing-attribute error; Encode of a
    non-text value raises the assertion error (TypeMismatch). *)
Theorem uninitialized_never_succeeds (host : Host) (v : pyval) (bos eos : bool)
    (t : list Z) :
  Tokenizer_new host None = (Return blank, [])
  /\ Decode blank t = Raise missing_sp_model
  /\ classify missing_sp_model = Some NotInitialized
  /\ Encode blank v bos eos
     = Raise (if isinstance_str v then tokenization_error missing_sp_model
              else not_a_string)
  /\ classify (if isinstance_str v then tokenization_error missing_sp_model
               else not_a_string)
     = Some (if isinstance_str v then EncodingFailure else TypeMismatch).
Proof.
  repeat split.
  - unfold Encode, encode. destruct (isinstance_str v); reflexivity.
  - destruct (isinstance_str v); reflexivity.
Qed.

(** C8: every successful construction from a path leaves the instance
    [loaded m] for the model [m] that was loaded, whose recorded vocabulary
    size is the piece count of [m]; when the model reports a vocabulary size
    equal to its piece count the assertion passes and construction succeeds;
    when they differ construction fails with the assertion error and the
    caller gets no instance. *)
Theorem init_vocab_consistent (host : Host) (path : string) :
  (forall tk tr,
      Tokenizer_new host (Some path) = (Return tk, tr) ->
      exists m,
        SentencePieceProcessor host path = Return m
        /\ tk = loaded m
        /\ n_words tk = Some (SentencePiece.get_piece_size m))
  /\ (forall m,
         isfile host path = true ->
         SentencePieceProcessor host path = Return m ->
         SentencePiece.vocab_size m = SentencePiece.get_piece_size m ->
         Tokenizer_new host (Some path) = (Return (loaded m), load_trace path m))
  /\ (forall m,
         isfile host path = true ->
         SentencePieceProcessor host path = Return m ->
         SentencePiece.vocab_size m <> SentencePiece.get_piece_size m ->
         Tokenizer_new host (Some path)
         = (Raise (Exc AssertionError "" None), load_trace path m)).
Proof.
  split; [| split].
  - intros tk tr. unfold Tokenizer_new.
    destruct (isfile host path) eqn:Hf.
    + destruct (SentencePieceProcessor host path) as [m | e] eqn:Hm.
      * rewrite (init_loaded host path m [] Hf Hm).
        destruct (Z.eqb_spec (SentencePiece.vocab_size m)
                    (SentencePiece.get_piece_size m)) as [Heq | Hne].
        -- intros [= <- <-]. exists m. repeat split. simpl. rewrite Heq. reflexivity.
        -- discriminate.
      * unfold __init__. rewrite Hf. simpl negb. cbv iota.
        unfold extern, bind at 1, bind at 1, emit at 1. rewrite Hm. discriminate.
    + unfold __init__. rewrite Hf. discriminate.
  - intros m Hf Hm Heq. unfold Tokenizer_new.
    rewrite (init_loaded host path m [] Hf Hm).
    apply Z.eqb_eq in Heq. rewrite Heq. reflexivity.
  - intros m Hf Hm Hne. unfold Tokenizer_new.
    rewrite (init_loaded host path m [] Hf Hm).
    apply Z.eqb_neq in Hne. rewrite Hne. reflexivity.
Qed.

Lemma init_vocab_consistent_witness :
  (exists m,
      SentencePieceProcessor Stub.host "tokenizer.model" = Return m
      /\ loaded Stub.model = loaded m
      /\ n_words (loaded Stub.model) = Some (SentencePiece.get_piece_size m))
  /\ Tokenizer_new Stub.host (Some "tokenizer.model")
     = (Return (loaded Stub.model), load_trace "tokenizer.model" Stub.model).
Proof.
  split.
  - apply (proj1 (init_vocab_consistent Stub.host "tokenizer.model")
             (loaded Stub.model) (load_trace "tokenizer.model" Stub.model)).
    reflexivity.
  - apply (proj1 (proj2 (init_vocab_consistent Stub.host "tokenizer.model")) Stub.model).
    + reflexivity.
    + reflexivity.
    + reflexivity.
Defined.

(** ** Frame *)

(** C9: Encode and Decode, whether they return or raise, leave every
    attribute of the instance (model handle, vocabulary size and the four
    reserved IDs) as it was before the call. *)
Theorem encode_decode_preserve_self (w : World) (s : pyval) (bos eos : bool)
    (t : list Z) :
  self (snd (encode s bos eos w)) = self w
  /\ self (snd (decode t w)) = self w.
Proof.
  split.
  - apply preserves_self_encode.
  - apply preserves_self_decode.
Qed.

(** ** The clamp *)

(** C10: when the model returns the raw IDs [raw], Encode(s, false, false)
    returns a list of the same length whose ID at each position is the raw ID
    at that position if it lies in [0, vocabulary size), and the
    unknown-token ID otherwise. *)
Theorem clamp_positionwise (m : SentencePiece.Processor) (s : string) (raw : list Z) :
  SentencePiece.encode m (PyStr s) = Return raw ->
  exists t,
    Encode (loaded m) (PyStr s) false false = Return t
    /\ List.length t = List.length raw
    /\ forall i r,
         nth_error raw i = Some r ->
         (in_vocab m r -> nth_error t i = Some r)
         /\ (~ in_vocab m r -> nth_error t i = Some (SentencePiece.unk_id m)).
Proof.
  intros Hraw. rewrite Encode_loaded, Hraw. simpl. rewrite app_nil_r.
  eexists. split; [reflexivity |]. split.
  - apply length_map.
  - intros i r Hi. rewrite nth_error_map, Hi. simpl. unfold in_vocab. split; intros H.
    + rewrite clamp_in by exact H. reflexivity.
    + rewrite clamp_out by exact H. reflexivity.
Qed.

Lemma clamp_positionwise_witness :
  exists t,
    Encode (loaded Stub.model) (PyStr "mismatch") false false = Return t
    /\ List.length t = List.length [45; 100; -3; 46; 99]
    /\ forall i r,
         nth_error [45; 100; -3; 46; 99] i = Some r ->
         (in_vocab Stub.model r -> nth_error t i = Some r)
         /\ (~ in_vocab Stub.model r -> nth_error t i = Some (SentencePiece.unk_id Stub.model)).
Proof.
  apply (clamp_positionwise Stub.model "mismatch" [45; 100; -3; 46; 99]).
  reflexivity.
Defined.

(** * Further properties of the class *)

(** ** What the methods show to the outside world *)

Lemma keeps_trace_ret {A : Type} (a : A) : keeps_trace (ret a).
Proof. intros w. reflexivity. Qed.

Lemma keeps_trace_getattr {A : Type} (name : string) (field : Tokenizer -> option A) :
  keeps_trace (getattr name field).
Proof. intros w. unfold getattr. destruct (field (self w)); reflexivity. Qed.

Lemma keeps_trace_bind {A B : Type} (m : M A) (k : A -> M B) :
  keeps_trace m -> (forall a, keeps_trace (k a)) -> keeps_trace (bind m k).
Proof.
  intros Hm Hk w. unfold bind. specialize (Hm w).
  destruct (m w) as [[a | e] w']; simpl in *.
  - rewrite Hk. exact Hm.
  - exact Hm.
Qed.

Lemma keeps_trace_if {A : Type} (c : bool) (m1 m2 : M A) :
  keeps_trace m1 -> keeps_trace m2 -> keeps_trace (if c then m1 else m2).
Proof. destruct c; trivial. Qed.

Lemma keeps_trace_list_comp {A B : Type} (f : A -> M B) (l : list A) :
  (forall a, keeps_trace (f a)) -> keeps_trace (list_comp f l).
Proof.
  intros Hf. induction l as [| x xs IH]; simpl.
  - apply keeps_trace_ret.
  - apply keeps_trace_bind; [apply Hf |].
    intros y. apply keeps_trace_bind; [exact IH |].
    intros ys. apply keeps_trace_ret.
Qed.

Create HintDb quiet.
#[local] Hint Resolve keeps_trace_ret keeps_trace_getattr keeps_trace_bind
  keeps_trace_if keeps_trace_list_comp : quiet.

Lemma keeps_trace_clamp_token (token_id : Z) : keeps_trace (clamp_token token_id).
Proof. unfold clamp_token. auto 6 with quiet. Qed.

#[local] Hint Resolve keeps_trace_clamp_token : quiet.

(** Binding a continuation that shows nothing leaves the trace of the head. *)
Lemma trace_bind_quiet {A B : Type} (m : M A) (k : A -> M B) (w : World) :
  (forall a, keeps_trace (k a)) ->
  trace (snd (bind m k w)) = trace (snd (m w)).
Proof.
  intros Hk. unfold bind. destruct (m w) as [[a | e] w']; simpl.
  - apply Hk.
  - reflexivity.
Qed.

(** X1: whatever the state of the instance, the input and the outcome,
    [encode] shows the outside world at most one thing: the call of the
    model's encoding procedure on the input as it was given, made only when
    the input is a string and the instance has a model; [decode] likewise
    shows only its call of the model's decoding procedure on the IDs as they
    were given.  Neither logs. *)
Theorem encode_decode_trace (w : World) (s : pyval) (bos eos : bool) (t : list Z) :
  trace (snd (encode s bos eos w)) = (trace w ++ encode_calls (self w) s)%list
  /\ trace (snd (decode t w)) = (trace w ++ decode_calls (self w) t)%list.
Proof.
  split.
  - unfold encode, encode_calls. destruct (isinstance_str s).
    + unfold py_assert. unfold bind at 1, ret at 1.
      rewrite trace_bind_quiet by (intros; auto 12 with quiet).
      unfold try_except, bind at 1, getattr at 1.
      destruct (sp_model (self w)) as [m |].
      * unfold extern, bind, emit. cbn [self trace].
        destruct (SentencePiece.encode m s) as [raw | e]; [reflexivity |].
        destruct (is_Exception e); reflexivity.
      * simpl. rewrite app_nil_r. reflexivity.
    + simpl. rewrite app_nil_r. reflexivity.
  - unfold decode, decode_calls, bind, getattr.
    destruct (sp_model (self w)) as [m |].
    + reflexivity.
    + simpl. rewrite app_nil_r. reflexivity.
Qed.

(** ** Encode on a loaded instance: when it returns and what it raises *)

(** X2: on a loaded instance Encode returns a list exactly when its input is
    a string and the model's encoding procedure returns; the flags play no
    part in that. *)
Theorem encode_returns_iff (m : SentencePiece.Processor) (v : pyval) (bos eos : bool) :
  (exists t, Encode (loaded m) v bos eos = Return t)
  <-> (isinstance_str v = true /\ exists raw, SentencePiece.encode m v = Return raw).
Proof.
  unfold Encode. destruct (isinstance_str v) eqn:Hv.
  - rewrite encode_loaded by exact Hv. simpl.
    destruct (SentencePiece.encode m v) as [raw | e].
    + split; intros _; [split; [reflexivity | eauto] | eauto].
    + split.
      * intros [t Ht]. destruct (is_Exception e); discriminate.
      * intros [_ [raw Hraw]]. discriminate.
  - unfold encode. rewrite Hv. simpl. split.
    + intros [t Ht]. discriminate.
    + intros [Hf _]. discriminate.
Qed.

(** X3: an exception of the model that does not derive from [Exception]
    (a keyboard interrupt, an interpreter exit) is not caught by [encode]:
    the caller gets that very exception, unwrapped. *)
Theorem encode_passes_non_exception (m : SentencePiece.Processor) (s : string)
    (bos eos : bool) (e : exception) :
  SentencePiece.encode m (PyStr s) = Raise e ->
  is_Exception e = false ->
  Encode (loaded m) (PyStr s) bos eos = Raise e.
Proof.
  intros Hraw Hexc. rewrite Encode_loaded, Hraw, Hexc. reflexivity.
Qed.

Lemma encode_passes_non_exception_witness :
  Encode (loaded Edge.interrupted_model) (PyStr "hi") true true
  = Raise (Exc Edge.KeyboardInterrupt "" None).
Proof.
  apply (encode_passes_non_exception Edge.interrupted_model "hi" true true
           (Exc Edge.KeyboardInterrupt "" None)).
  - reflexivity.
  - reflexivity.
Defined.

(** ** Encode on a loaded instance: the shape of the result *)

(** X4: when the model returns [raw], Encode returns as many IDs as [raw]
    has, plus one for each flag that is set. *)
Theorem encode_length (m : SentencePiece.Processor) (s : string) (bos eos : bool)
    (raw : list Z) :
  SentencePiece.encode m (PyStr s) = Return raw ->
  exists t,
    Encode (loaded m) (PyStr s) bos eos = Return t
    /\ List.length t
       = (List.length raw + Nat.b2n bos + Nat.b2n eos)%nat.
Proof.
  intros Hraw. rewrite Encode_loaded, Hraw. eexists. split; [reflexivity |].
  rewrite !length_app, length_map. destruct bos, eos; simpl; lia.
Qed.

Lemma encode_length_witness :
  exists t,
    Encode (loaded Stub.model) (PyStr "mismatch") true true = Return t
    /\ List.length t = 7%nat.
Proof.
  apply (encode_length Stub.model "mismatch" true true [45; 100; -3; 46; 99]).
  reflexivity.
Defined.

Lemma map_clamp_in_vocab (n unk : Z) (raw : list Z) :
  Forall (fun r => 0 <= r < n) raw -> map (clamp n unk) raw = raw.
Proof.
  induction 1 as [| r raw Hr _ IH]; simpl.
  - reflexivity.
  - rewrite clamp_in by exact Hr. rewrite IH. reflexivity.
Qed.

Lemma map_clamp_empty_range (n unk : Z) (raw : list Z) :
  n <= 0 -> map (clamp n unk) raw = repeat unk (List.length raw).
Proof.
  intros Hn. induction raw as [| r raw IH]; simpl.
  - reflexivity.
  - rewrite clamp_out by lia. rewrite IH. reflexivity.
Qed.

(** X5: when every raw ID of the model lies in [0, vocabulary size),
    Encode(s, false, false) is the raw list itself. *)
Theorem encode_in_vocab_unchanged (m : SentencePiece.Processor) (s : string)
    (raw : list Z) :
  SentencePiece.encode m (PyStr s) = Return raw ->
  Forall (in_vocab m) raw ->
  Encode (loaded m) (PyStr s) false false = Return raw.
Proof.
  intros Hraw Hin. rewrite Encode_loaded, Hraw. simpl. rewrite app_nil_r.
  rewrite map_clamp_in_vocab by exact Hin. reflexivity.
Qed.

Lemma encode_in_vocab_unchanged_witness :
  Encode (loaded Stub.model) (PyStr "hi") false false = Return [45; 46].
Proof.
  apply (encode_in_vocab_unchanged Stub.model "hi" [45; 46]).
  - reflexivity.
  - repeat constructor; unfold in_vocab; simpl; lia.
Defined.

(** X6: when the recorded vocabulary size is zero or negative, [range] is
    empty and every raw ID, whatever it is, is replaced with the
    unknown-token ID. *)
Theorem encode_empty_vocabulary (m : SentencePiece.Processor) (s : string)
    (raw : list Z) :
  SentencePiece.vocab_size m <= 0 ->
  SentencePiece.encode m (PyStr s) = Return raw ->
  Encode (loaded m) (PyStr s) false false
  = Return (repeat (SentencePiece.unk_id m) (List.length raw)).
Proof.
  intros Hn Hraw. rewrite Encode_loaded, Hraw. simpl. rewrite app_nil_r.
  rewrite map_clamp_empty_range by exact Hn. reflexivity.
Qed.

Lemma encode_empty_vocabulary_witness :
  Encode (loaded Edge.empty_vocab_model) (PyStr "hi") false false = Return [0; 0].
Proof.
  apply (encode_empty_vocabulary Edge.empty_vocab_model "hi" [45; 46]).
  - simpl. lia.
  - reflexivity.
Defined.

(** ** The clamp at its bounds *)

(** X7: the range test is half-open.  With a recorded vocabulary size [n > 0]
    the raw IDs 0 and n-1 are kept, and the raw IDs -1 and n are replaced
    with the unknown-token ID. *)
Theorem clamp_bounds (w : World) (n unk : Z) :
  n_words (self w) = Some n ->
  unk_id (self w) = Some unk ->
  0 < n ->
  list_comp clamp_token [-1; 0; n - 1; n] w = (Return [unk; 0; n - 1; unk], w).
Proof.
  intros Hn Hu Hpos. rewrite (list_comp_clamp w n unk) by assumption. simpl.
  rewrite (clamp_out n unk (-1)) by lia.
  rewrite (clamp_in n unk 0) by lia.
  rewrite (clamp_in n unk (n - 1)) by lia.
  rewrite (clamp_out n unk n) by lia.
  reflexivity.
Qed.

Lemma clamp_bounds_witness :
  list_comp clamp_token [-1; 0; 100 - 1; 100] {| self := loaded Stub.model; trace := [] |}
  = (Return [0; 0; 100 - 1; 0], {| self := loaded Stub.model; trace := [] |}).
Proof.
  apply (clamp_bounds {| self := loaded Stub.model; trace := [] |} 100 0).
  - reflexivity.
  - reflexivity.
  - lia.
Defined.

(** X8: what the comprehension returns is a fixed point of it: clamping the
    clamped list again, on the same instance, returns it unchanged.  This
    holds whatever attributes the instance has. *)
Theorem clamp_idempotent (w w' : World) (raw t : list Z) :
  list_comp clamp_token raw w = (Return t, w') ->
  list_comp clamp_token t w = (Return t, w).
Proof.
  revert t w'. induction raw as [| r raw IH]; intros t w' H.
  - simpl in H. unfold ret in H. injection H as <- _. reflexivity.
  - simpl in H. unfold bind at 1 in H.
    unfold clamp_token at 1, bind at 1, getattr at 1 in H.
    destruct (n_words (self w)) as [n |] eqn:Hn; [| discriminate].
    destruct (in_range r n) eqn:Hr.
    + unfold ret at 1, bind at 1 in H.
      destruct (list_comp clamp_token raw w) as [[ys | e] w''] eqn:Hl; [| discriminate].
      unfold ret in H. injection H as <- _.
      simpl. unfold bind at 1. unfold clamp_token at 1, bind at 1, getattr at 1.
      rewrite Hn, Hr. unfold ret at 1, bind at 1.
      rewrite (IH ys w'' eq_refl). reflexivity.
    + unfold getattr at 1 in H.
      destruct (unk_id (self w)) as [u |] eqn:Hu; [| discriminate].
      unfold bind at 1 in H.
      destruct (list_comp clamp_token raw w) as [[ys | e] w''] eqn:Hl; [| discriminate].
      unfold ret in H. injection H as <- _.
      simpl. unfold bind at 1. unfold clamp_token at 1, bind at 1, getattr at 1.
      rewrite Hn. destruct (in_range u n).
      * unfold ret at 1, bind at 1. rewrite (IH ys w'' eq_refl). reflexivity.
      * unfold getattr at 1. rewrite Hu. unfold bind at 1.
        rewrite (IH ys w'' eq_refl). reflexivity.
Qed.

Lemma clamp_idempotent_witness :
  list_comp clamp_token [45; 0; 0; 46; 99] {| self := loaded Stub.model; trace := [] |}
  = (Return [45; 0; 0; 46; 99], {| self := loaded Stub.model; trace := [] |}).
Proof.
  apply (clamp_idempotent {| self := loaded Stub.model; trace := [] |}
           {| self := loaded Stub.model; trace := [] |} [45; 100; -3; 46; 99]).
  reflexivity.
Defined.

(** ** Encode, then Decode *)

(** X9: the wrapper adds nothing to the model's own round trip: when the raw
    IDs of [s] all lie in [0, vocabulary size) and the model decodes them
    back to [s], Decode of Encode(s, false, false) is [s]. *)
Theorem decode_encode_round_trip (m : SentencePiece.Processor) (s : string)
    (raw : list Z) :
  SentencePiece.encode m (PyStr s) = Return raw ->
  Forall (in_vocab m) raw ->
  SentencePiece.decode m raw = Return s ->
  exists t,
    Encode (loaded m) (PyStr s) false false = Return t
    /\ Decode (loaded m) t = Return s.
Proof.
  intros Hraw Hin Hdec. exists raw. split.
  - rewrite Encode_loaded, Hraw. simpl. rewrite app_nil_r.
    rewrite map_clamp_in_vocab by exact Hin. reflexivity.
  - unfold Decode. simpl. exact Hdec.
Qed.

Lemma decode_encode_round_trip_witness :
  exists t,
    Encode (loaded Edge.lossless_model) (PyStr "hi") false false = Return t
    /\ Decode (loaded Edge.lossless_model) t = Return "hi".
Proof.
  apply (decode_encode_round_trip Edge.lossless_model "hi" [45; 46]).
  - reflexivity.
  - repeat constructor; unfold in_vocab; simpl; lia.
  - reflexivity.
Defined.

(** ** Construction: the other ways it ends *)

(** X10: when the path is a file but loading the model raises, the
    constructor lets that exception through as it is; nothing has been
    logged, no attribute has been assigned, and the caller gets no
    instance. *)
Theorem init_load_failure (host : Host) (path : string) (e : exception)
    (tr : list event) :
  isfile host path = true ->
  SentencePieceProcessor host path = Raise e ->
  __init__ host (Some path) {| self := blank; trace := tr |}
  = (Raise e, {| self := blank; trace := (tr ++ [ModelLoad path])%list |})
  /\ Tokenizer_new host (Some path) = (Raise e, [ModelLoad path]).
Proof.
  intros Hf Hm. unfold Tokenizer_new, __init__. rewrite Hf. simpl negb. cbv iota.
  unfold extern, bind at 1, bind at 1, emit at 1. rewrite Hm. simpl.
  split; reflexivity.
Qed.

Lemma init_load_failure_witness :
  Tokenizer_new Edge.corrupt_host (Some "notes.txt")
  = (Raise (Exc Stub.RuntimeError "Internal: could not parse ModelProto" None),
     [ModelLoad "notes.txt"]).
Proof.
  apply (init_load_failure Edge.corrupt_host "notes.txt"
           (Exc Stub.RuntimeError "Internal: could not parse ModelProto" None) []).
  - reflexivity.
  - reflexivity.
Defined.

(** X11: the constructor returns an instance in one of two states only.
    Without a path it is the blank instance and nothing was loaded or
    logged.  With a path, the path is a file, the model loaded from it
    reports a vocabulary size equal to its piece count, all six attributes
    are set from that model, and the outside world saw the load followed by
    two log records. *)
Theorem new_blank_or_loaded (host : Host) (model_path : option string)
    (tk : Tokenizer) (tr : list event) :
  Tokenizer_new host model_path = (Return tk, tr) ->
  (model_path = None /\ tk = blank /\ tr = [])
  \/ (exists path m,
         model_path = Some path
         /\ isfile host path = true
         /\ SentencePieceProcessor host path = Return m
         /\ SentencePiece.vocab_size m = SentencePiece.get_piece_size m
         /\ tk = loaded m
         /\ tr = load_trace path m).
Proof.
  destruct model_path as [path |].
  - intros H. right. exists path. unfold Tokenizer_new in H.
    destruct (isfile host path) eqn:Hf.
    + destruct (SentencePieceProcessor host path) as [m | e] eqn:Hm.
      * rewrite (init_loaded host path m [] Hf Hm) in H.
        destruct (Z.eqb_spec (SentencePiece.vocab_size m)
                    (SentencePiece.get_piece_size m)) as [Heq | Hne].
        -- injection H as <- <-. exists m. repeat split. exact Heq.
        -- discriminate.
      * unfold __init__ in H. rewrite Hf in H. simpl negb in H. cbv iota in H.
        unfold extern, bind at 1, bind at 1, emit at 1 in H. rewrite Hm in H.
        discriminate.
    + unfold __init__ in H. rewrite Hf in H. discriminate.
  - intros H. left. unfold Tokenizer_new in H. simpl in H.
    injection H as <- <-. repeat split.
Qed.

Lemma new_blank_or_loaded_witness :
  (Some "tokenizer.model" = None /\ loaded Stub.model = blank
   /\ load_trace "tokenizer.model" Stub.model = [])
  \/ (exists path m,
         Some "tokenizer.model" = Some path
         /\ isfile Stub.host path = true
         /\ SentencePieceProcessor Stub.host path = Return m
         /\ SentencePiece.vocab_size m = SentencePiece.get_piece_size m
         /\ loaded Stub.model = loaded m
         /\ load_trace "tokenizer.model" Stub.model = load_trace path m).
Proof.
  apply (new_blank_or_loaded Stub.host (Some "tokenizer.model")
           (loaded Stub.model) (load_trace "tokenizer.model" Stub.model)).
  reflexivity.
Defined.

(** ** Where the returned IDs come from *)

(** X12: Encode invents no ID.  Each ID it returns is a raw ID of the model,
    or the unknown-token ID, or the BOS ID (only when [bos] is set), or the
    EOS ID (only when [eos] is set); the padding ID is never put in. *)
Theorem encode_id_provenance (m : SentencePiece.Processor) (s : string)
    (bos eos : bool) (raw t : list Z) (id : Z) :
  SentencePiece.encode m (PyStr s) = Return raw ->
  Encode (loaded m) (PyStr s) bos eos = Return t ->
  In id t ->
  In id raw
  \/ id = SentencePiece.unk_id m
  \/ (bos = true /\ id = SentencePiece.bos_id m)
  \/ (eos = true /\ id = SentencePiece.eos_id m).
Proof.
  intros Hraw. rewrite Encode_loaded, Hraw. intros [= <-] Hin.
  rewrite !in_app_iff in Hin. destruct Hin as [Hb | [Hr | He]].
  - destruct bos; simpl in Hb; [| contradiction].
    destruct Hb as [<- | []]. right. right. left. split; reflexivity.
  - apply in_map_iff in Hr. destruct Hr as [r [<- Hr]]. unfold clamp.
    destruct (in_range r (SentencePiece.vocab_size m)).
    + left. exact Hr.
    + right. left. reflexivity.
  - destruct eos; simpl in He; [| contradiction].
    destruct He as [<- | []]. right. right. right. split; reflexivity.
Qed.

Lemma encode_id_provenance_witness :
  In 0 [45; 100; -3; 46; 99]
  \/ 0 = SentencePiece.unk_id Stub.model
  \/ (true = true /\ 0 = SentencePiece.bos_id Stub.model)
  \/ (false = true /\ 0 = SentencePiece.eos_id Stub.model).
Proof.
  apply (encode_id_provenance Stub.model "mismatch" true false
           [45; 100; -3; 46; 99] [1; 45; 0; 0; 46; 99] 0).
  - reflexivity.
  - reflexivity.
  - simpl. auto.
Defined.
